(** * OnboardingForm: phone mask, validation and submission handler

    A shallow embedding of [src/components/OnboardingForm.tsx].

    JavaScript strings are sequences of UTF-16 code units; [length],
    [slice], [trim] and the regular expression [/\D/g] (no [u] flag) all
    work code unit by code unit, so a string is a list of code units here.
    React state ([formData], [showPassword], [isLoading]) is one record,
    and every [setX] call is a function on that record.  The toast
    collaborator is a log of the notifications it was handed. *)

From Stdlib Require Import Ascii String.
From Stdlib Require Import List NArith Arith Bool Lia.
Import ListNotations.

Set Implicit Arguments.

(** ** JavaScript string primitives *)

Module JS.

Definition codeUnit := N.
Definition jsstring := list codeUnit.

(** An ASCII literal of the source, as code units. *)
Definition lit (s : string) : jsstring :=
  map N_of_ascii (list_ascii_of_string s).

(** [\d] without the [u] flag: the code units of 0..9. *)
Definition isDigit (c : codeUnit) : bool :=
  N.leb 48 c && N.leb c 57.

(** [\D]: the complement class. *)
Definition isNonDigit (c : codeUnit) : bool := negb (isDigit c).

(** [s.replace(/cls/g, '')] for a one-code-unit class [cls]: every match
    is replaced by the empty string. *)
Fixpoint replaceClassWithEmpty (cls : codeUnit -> bool) (s : jsstring)
  : jsstring :=
  match s with
  | [] => []
  | c :: rest =>
      if cls c then replaceClassWithEmpty cls rest
      else c :: replaceClassWithEmpty cls rest
  end.

(** [s.slice(start, end)] for non-negative integer arguments: both ends
    are clamped to the length, and an end before the start gives the
    empty string. *)
Definition slice (s : jsstring) (start stop : nat) : jsstring :=
  let len := length s in
  let from := Nat.min start len in
  let to := Nat.min stop len in
  let span := Nat.max (to - from) 0 in
  firstn span (skipn from s).

(** [s.slice(start)]: the end defaults to the length. *)
Definition sliceFrom (s : jsstring) (start : nat) : jsstring :=
  slice s start (length s).

(** WhiteSpace and LineTerminator of ECMAScript, which [trim] removes. *)
Definition isWhiteSpace (c : codeUnit) : bool :=
  (N.leb 9 c && N.leb c 13)
  || N.eqb c 32 || N.eqb c 160 || N.eqb c 5760
  || (N.leb 8192 c && N.leb c 8202)
  || N.eqb c 8232 || N.eqb c 8233 || N.eqb c 8239
  || N.eqb c 8287 || N.eqb c 12288 || N.eqb c 65279.

Fixpoint trimStart (s : jsstring) : jsstring :=
  match s with
  | [] => []
  | c :: rest => if isWhiteSpace c then trimStart rest else s
  end.

Definition trimEnd (s : jsstring) : jsstring := rev (trimStart (rev s)).

Definition trim (s : jsstring) : jsstring := trimEnd (trimStart s).

(** [!s] on a string: true exactly for the empty string. *)
Definition isFalsy (s : jsstring) : bool :=
  match s with [] => true | _ :: _ => false end.

End JS.

Import JS.

(** ** The phone mask *)

(** [formatPhoneNumber], lines 32-46. *)
Definition formatPhoneNumber (value : jsstring) : jsstring :=
  let numbers := replaceClassWithEmpty isNonDigit value in
  if length numbers <=? 2 then
    lit "+55 " ++ numbers
  else if length numbers <=? 4 then
    lit "+55 (" ++ sliceFrom numbers 2 ++ lit ")"
  else if length numbers <=? 9 then
    lit "+55 (" ++ slice numbers 2 4 ++ lit ") " ++ sliceFrom numbers 4
  else
    lit "+55 (" ++ slice numbers 2 4 ++ lit ") " ++ slice numbers 4 9
      ++ lit "-" ++ slice numbers 9 13.

(** The digit sequence of a string, as the specification speaks of it:
    its digits, in order. *)
Definition digitsOf (s : jsstring) : jsstring := filter isDigit s.

(** The specification's sub-sequence notation [d[a:b]] and [d[a:]]. *)
Definition sub (d : jsstring) (a b : nat) : jsstring :=
  firstn (b - a) (skipn a d).

Definition subFrom (d : jsstring) (a : nat) : jsstring := skipn a d.

(** The pattern table of the specification, by digit count; it has no row
    beyond 13 digits. *)
Definition patternTable (d : jsstring) : option jsstring :=
  let n := length d in
  if n <=? 2 then
    Some (lit "+55 " ++ d)
  else if (3 <=? n) && (n <=? 4) then
    Some (lit "+55 (" ++ subFrom d 2 ++ lit ")")
  else if (5 <=? n) && (n <=? 9) then
    Some (lit "+55 (" ++ sub d 2 4 ++ lit ") " ++ subFrom d 4)
  else if (10 <=? n) && (n <=? 13) then
    Some (lit "+55 (" ++ sub d 2 4 ++ lit ") " ++ sub d 4 9
            ++ lit "-" ++ sub d 9 13)
  else None.

(** ** Component state *)

(** [interface FormData], lines 9-13. *)
Record FormData := mkFormData {
  fullName : jsstring;
  phoneNumber : jsstring;
  password : jsstring
}.

(** [keyof FormData]. *)
Inductive Field := FullName | PhoneNumber | Password.

Inductive Variant := destructive.

(** The argument of [toast]; the success toast has no [variant]. *)
Record Toast := mkToast {
  title : jsstring;
  description : jsstring;
  variant : option Variant
}.

(** The three [useState] cells of the component, and the notifications
    handed to the toast collaborator so far, oldest first. *)
Record Component := mkComponent {
  formData : FormData;
  showPassword : bool;
  isLoading : bool;
  toasts : list Toast
}.

(** The initial values of the [useState] calls, lines 16-22. *)
Definition emptyFormData : FormData :=
  {| fullName := []; phoneNumber := []; password := [] |}.

Definition initialComponent : Component :=
  {| formData := emptyFormData; showPassword := false;
     isLoading := false; toasts := [] |}.

Definition setFormData (f : FormData -> FormData) (c : Component)
  : Component :=
  {| formData := f (formData c); showPassword := showPassword c;
     isLoading := isLoading c; toasts := toasts c |}.

Definition setShowPassword (b : bool) (c : Component) : Component :=
  {| formData := formData c; showPassword := b;
     isLoading := isLoading c; toasts := toasts c |}.

Definition setIsLoading (b : bool) (c : Component) : Component :=
  {| formData := formData c; showPassword := showPassword c;
     isLoading := b; toasts := toasts c |}.

Definition toast (t : Toast) (c : Component) : Component :=
  {| formData := formData c; showPassword := showPassword c;
     isLoading := isLoading c; toasts := toasts c ++ [t] |}.

(** [{...prev, [field]: value}]. *)
Definition updateField (field : Field) (value : jsstring) (prev : FormData)
  : FormData :=
  match field with
  | FullName =>
      {| fullName := value; phoneNumber := phoneNumber prev;
         password := password prev |}
  | PhoneNumber =>
      {| fullName := fullName prev; phoneNumber := value;
         password := password prev |}
  | Password =>
      {| fullName := fullName prev; phoneNumber := phoneNumber prev;
         password := value |}
  end.

(** [handleInputChange], lines 25-30. *)
Definition handleInputChange (field : Field) (value : jsstring)
  : Component -> Component :=
  setFormData (updateField field value).

(** [handlePhoneChange], lines 48-51. *)
Definition handlePhoneChange (value : jsstring) : Component -> Component :=
  let formatted := formatPhoneNumber value in
  handleInputChange PhoneNumber formatted.

(** ** Notifications of the submit handler *)

Definition Erro : jsstring := lit "Erro".

(** Line 61. *)
Definition nameMessage : jsstring :=
  lit "Por favor, preencha seu nome completo.".

(** Line 71; U+00FA and U+00E1 are written as code units. *)
Definition phoneMessage : jsstring :=
  lit "Por favor, preencha um n" ++ [250%N] ++ lit "mero de telefone v"
    ++ [225%N] ++ lit "lido.".

(** Line 81. *)
Definition passwordMessage : jsstring :=
  lit "A senha deve ter pelo menos 6 caracteres.".

(** Line 95; U+00EA, U+00E1, U+00E7 and U+00F5 are written as code units. *)
Definition successMessage : jsstring :=
  lit "Cadastro realizado com sucesso. Voc" ++ [234%N] ++ lit " receber"
    ++ [225%N] ++ lit " as instru" ++ [231%N; 245%N]
    ++ lit "es de acesso em breve.".

(** Line 107. *)
Definition failureMessage : jsstring :=
  lit "Ocorreu um erro ao processar seu cadastro. Tente novamente.".

Definition errorToast (msg : jsstring) : Toast :=
  {| title := Erro; description := msg; variant := Some destructive |}.

Definition successToast : Toast :=
  {| title := lit "Sucesso!"; description := successMessage;
     variant := None |}.

(** ** The submit handler *)

(** How the promise awaited on line 91 settles. *)
Inductive Settlement := Fulfilled | Rejected.

(** The promise of line 91 is resolved by its timer and never rejected. *)
Definition simulatedSubmission : Settlement := Fulfilled.

(** Where an invocation of [handleSubmit] ends: the [return] of line 65,
    75 or 85, the end of the [try] block, or the [catch] block. *)
Inductive Exit :=
| EmptyName
| InvalidPhone
| WeakPassword
| Success
| SubmissionFailure.

(** The three conditions of lines 58, 68 and 78. *)
Definition nameRejected (formData : FormData) : bool :=
  isFalsy (trim (fullName formData)).

Definition phoneRejected (formData : FormData) : bool :=
  isFalsy (trim (phoneNumber formData))
  || (length (phoneNumber formData) <? 19).

Definition passwordRejected (formData : FormData) : bool :=
  isFalsy (trim (password formData))
  || (length (password formData) <? 6).

(** [handleSubmit] from its entry to the [await], lines 54-91.  [formData]
    is the value the handler closed over, the state at the event.  The
    result is [Some] exit when the handler has returned, and [None] when it
    is suspended at the [await]. *)
Definition handleSubmit_toAwait (c : Component) : Component * option Exit :=
  let formData := formData c in
  let c := setIsLoading true c in
  if nameRejected formData then
    let c := toast (errorToast nameMessage) c in
    let c := setIsLoading false c in
    (c, Some EmptyName)
  else if phoneRejected formData then
    let c := toast (errorToast phoneMessage) c in
    let c := setIsLoading false c in
    (c, Some InvalidPhone)
  else if passwordRejected formData then
    let c := toast (errorToast passwordMessage) c in
    let c := setIsLoading false c in
    (c, Some WeakPassword)
  else
    (c, None).

(** [handleSubmit] from the settlement of the awaited promise to its end,
    lines 91-112: the rest of the [try] block or the [catch] block, then
    the [finally] block. *)
Definition handleSubmit_fromAwait (settled : Settlement) (c : Component)
  : Component * Exit :=
  let (c, exit) :=
    match settled with
    | Fulfilled =>
        let c := toast successToast c in
        let c := setFormData (fun _ => emptyFormData) c in
        (c, Success)
    | Rejected =>
        let c := toast (errorToast failureMessage) c in
        (c, SubmissionFailure)
    end in
  let c := setIsLoading false c in
  (c, exit).

(** A whole invocation of [handleSubmit], lines 53-113, with nothing else
    happening while it is suspended. *)
Definition handleSubmit (settled : Settlement) (c : Component)
  : Component * Exit :=
  match handleSubmit_toAwait c with
  | (c, Some exit) => (c, exit)
  | (c, None) => handleSubmit_fromAwait settled c
  end.

(** ** The component as a transition system *)

(** What can happen to a mounted component: the [onChange] handlers of
    lines 153, 172 and 192, the click of line 199, the [onSubmit] of line
    140, and the settlement of a pending submission. *)
Inductive Event :=
| ChangeFullName (value : jsstring)
| ChangePhoneNumber (value : jsstring)
| ChangePassword (value : jsstring)
| ClickShowPassword
| SubmitForm
| SubmissionSettled (settled : Settlement).

(** The submit button is disabled while [isLoading] (line 217), so the
    form is submitted only when it is false; [isLoading] is then true
    exactly while an invocation is suspended at the [await], and only then
    can its promise settle. *)
Definition dispatch (e : Event) (c : Component) : Component :=
  match e with
  | ChangeFullName value => handleInputChange FullName value c
  | ChangePhoneNumber value => handlePhoneChange value c
  | ChangePassword value => handleInputChange Password value c
  | ClickShowPassword => setShowPassword (negb (showPassword c)) c
  | SubmitForm =>
      if isLoading c then c else fst (handleSubmit_toAwait c)
  | SubmissionSettled settled =>
      if isLoading c then fst (handleSubmit_fromAwait settled c) else c
  end.

Definition run (events : list Event) (c : Component) : Component :=
  fold_left (fun c e => dispatch e c) events c.

(** The fully rendered mask over the first thirteen digits. *)
Definition fullMask (d : jsstring) : jsstring :=
  lit "+55 (" ++ sub d 2 4 ++ lit ") " ++ sub d 4 9 ++ lit "-" ++ sub d 9 13.

(** A string is the fully formatted form when it is the full mask over
    some thirteen digits. *)
Definition isFullMask (p : jsstring) : Prop :=
  exists d, length d = 13 /\ forallb isDigit d = true /\ p = fullMask d.

(** A character that [trim] never removes. *)
Definition visible (c : codeUnit) : bool := negb (isWhiteSpace c).

(** The form of the specification's valid example. *)
Definition mariaSilva : FormData :=
  {| fullName := lit "Maria Silva";
     phoneNumber := lit "+55 (11) 99999-9999";
     password := lit "abcdef" |}.

(** The invariant of the [phoneNumber] field. *)
Definition phoneFormatted (c : Component) : Prop :=
  phoneNumber (formData c) = []
  \/ exists value, phoneNumber (formData c) = formatPhoneNumber value.

(** The state a rejected or failed submission ends in: only the log of
    notifications has grown. *)
Definition notified (t : Toast) (c : Component) : Component :=
  {| formData := formData c; showPassword := showPassword c;
     isLoading := false; toasts := toasts c ++ [t] |}.

(** ** Typing into the phone field *)

(** A key pressed with the caret at the end of the phone field: the
    [onChange] of line 172 receives the field's value with the key
    appended. *)
Definition typeKey (key : codeUnit) (c : Component) : Component :=
  dispatch (ChangePhoneNumber (phoneNumber (formData c) ++ [key])) c.

Definition typeKeys (keys : list codeUnit) (c : Component) : Component :=
  fold_left (fun c key => typeKey key c) keys c.

(** Backspace with the caret at the end of a field value: the value
    without its last character. *)
Definition backspace (value : jsstring) : jsstring := removelast value.

(** The events that edit the form's inputs, as opposed to those of a
    submission. *)
Definition isEdit (e : Event) : bool :=
  match e with
  | ChangeFullName _ | ChangePhoneNumber _ | ChangePassword _
  | ClickShowPassword => true
  | SubmitForm | SubmissionSettled _ => false
  end.

(** A string [trim] reduces to the empty string. *)
Definition blank (s : jsstring) : bool := forallb isWhiteSpace s.

(** [formData[field]]. *)
Definition fieldValue (field : Field) (formData : FormData) : jsstring :=
  match field with
  | FullName => fullName formData
  | PhoneNumber => phoneNumber formData
  | Password => password formData
  end.

Definition Field_eqb (f g : Field) : bool :=
  match f, g with
  | FullName, FullName | PhoneNumber, PhoneNumber | Password, Password => true
  | _, _ => false
  end.

(** The characters of the mask: digits and the punctuation of
    ["+55 (DD) DDDDD-DDDD"]. *)
Definition maskChar (c : codeUnit) : bool :=
  isDigit c || N.eqb c 43 || N.eqb c 32 || N.eqb c 40 || N.eqb c 41
  || N.eqb c 45.

(** * Properties *)

(** ** Strings *)

Lemma replace_nonDigits_digitsOf (s : jsstring) :
  replaceClassWithEmpty isNonDigit s = digitsOf s.
Proof.
  unfold digitsOf.
  induction s as [|c s IH]; [reflexivity|].
  cbn [replaceClassWithEmpty filter]. unfold isNonDigit at 1.
  destruct (isDigit c); cbn [negb]; now rewrite IH.
Qed.

Lemma digitsOf_app (s t : jsstring) :
  digitsOf (s ++ t) = digitsOf s ++ digitsOf t.
Proof. apply filter_app. Qed.

Lemma digitsOf_all_digits (s : jsstring) :
  forallb isDigit (digitsOf s) = true.
Proof.
  induction s as [|c s IH]; [reflexivity|].
  cbn. destruct (isDigit c) eqn:E; cbn; [rewrite E|]; exact IH.
Qed.

Lemma digitsOf_of_digits (d : jsstring) :
  forallb isDigit d = true -> digitsOf d = d.
Proof.
  induction d as [|c d IH]; [reflexivity|].
  cbn. destruct (isDigit c); cbn; [|discriminate].
  intros H. f_equal. now apply IH.
Qed.

Lemma digitsOf_idempotent (s : jsstring) : digitsOf (digitsOf s) = digitsOf s.
Proof. apply digitsOf_of_digits, digitsOf_all_digits. Qed.

(** Splits a list into the cases of length 0, 1, ..., [n - 1] and at
    least [n]. *)
Ltac by_length d n :=
  lazymatch n with
  | O => idtac
  | S ?m => let x := fresh "x" in destruct d as [|x d]; [|by_length d m]
  end.

Lemma forallb_firstn (p : codeUnit -> bool) (n : nat) (d : jsstring) :
  forallb p d = true -> forallb p (firstn n d) = true.
Proof.
  revert d. induction n as [|n IH]; intros [|c d]; cbn; try reflexivity.
  rewrite !andb_true_iff. intros [Hc Hd]. auto.
Qed.

Lemma forallb_skipn (p : codeUnit -> bool) (n : nat) (d : jsstring) :
  forallb p d = true -> forallb p (skipn n d) = true.
Proof.
  revert d. induction n as [|n IH]; intros [|c d]; cbn; try reflexivity.
  - trivial.
  - rewrite andb_true_iff. intros [_ Hd]. auto.
Qed.

Lemma digitsOf_slice (d : jsstring) (a b : nat) :
  forallb isDigit d = true -> digitsOf (slice d a b) = slice d a b.
Proof.
  intros Hd. apply digitsOf_of_digits. unfold slice.
  now apply forallb_firstn, forallb_skipn.
Qed.

(** [trim] keeps every character that is not white space. *)
Lemma existsb_visible_trimStart (s : jsstring) :
  existsb visible s = true -> existsb visible (trimStart s) = true.
Proof.
  induction s as [|c s IH]; [trivial|].
  cbn [trimStart]. destruct (isWhiteSpace c) eqn:E; [|trivial].
  cbn [existsb]. unfold visible at 1. rewrite E. exact IH.
Qed.

Lemma existsb_visible_rev (s : jsstring) :
  existsb visible s = true -> existsb visible (rev s) = true.
Proof.
  rewrite !existsb_exists. intros [c [Hin Hc]].
  exists c. split; [now apply in_rev in Hin|exact Hc].
Qed.

Lemma trim_visible (s : jsstring) :
  existsb visible s = true -> isFalsy (trim s) = false.
Proof.
  intros H. unfold trim, trimEnd.
  assert (Hv : existsb visible (rev (trimStart (rev (trimStart s)))) = true)
    by now repeat first
         [apply existsb_visible_rev | apply existsb_visible_trimStart].
  destruct (rev (trimStart (rev (trimStart s)))); [discriminate|reflexivity].
Qed.

(** ** The phone mask *)

Lemma formatPhoneNumber_digitsOf (s : jsstring) :
  formatPhoneNumber s = formatPhoneNumber (digitsOf s).
Proof.
  unfold formatPhoneNumber. rewrite !replace_nonDigits_digitsOf.
  now rewrite digitsOf_idempotent.
Qed.

(** From the third digit on, the digits of the rendered mask are the
    country code 55 followed by the digits after the first two, up to the
    thirteenth. *)
Lemma digitsOf_formatPhoneNumber (d : jsstring) :
  forallb isDigit d = true ->
  3 <= length d ->
  digitsOf (formatPhoneNumber d) = lit "55" ++ firstn 11 (skipn 2 d).
Proof.
  intros Hd Hlen. unfold formatPhoneNumber, sliceFrom.
  rewrite replace_nonDigits_digitsOf, (digitsOf_of_digits d Hd).
  destruct (length d <=? 2) eqn:E2.
  { apply Nat.leb_le in E2. lia. }
  destruct (length d <=? 4) eqn:E4; [|destruct (length d <=? 9) eqn:E9];
    rewrite !digitsOf_app, !digitsOf_slice by exact Hd;
    clear Hd; by_length d 14; try discriminate; reflexivity.
Qed.

(** C1. For every string whose digit sequence [d] has at most 13 digits,
    [formatPhoneNumber] returns the row of the pattern table for [d]:
    ["+55 d"] for 0-2 digits, ["+55 (d[2:])"] for 3-4,
    ["+55 (d[2:4]) d[4:]"] for 5-9 and ["+55 (d[2:4]) d[4:9]-d[9:13]"] for
    10-13; the other characters of the string play no part: two strings
    with the same digits are formatted alike. *)
Theorem formatPhoneNumber_pattern_table (s : jsstring) :
  length (digitsOf s) <= 13 ->
  patternTable (digitsOf s) = Some (formatPhoneNumber s)
  /\ formatPhoneNumber s = formatPhoneNumber (digitsOf s)
  /\ forall t, digitsOf t = digitsOf s ->
               formatPhoneNumber t = formatPhoneNumber s.
Proof.
  intros Hlen. split; [|split].
  - unfold formatPhoneNumber. rewrite replace_nonDigits_digitsOf.
    remember (digitsOf s) as d eqn:E. clear E.
    by_length d 14; try reflexivity.
    cbn in Hlen. lia.
  - apply formatPhoneNumber_digitsOf.
  - intros t Ht. unfold formatPhoneNumber.
    rewrite !replace_nonDigits_digitsOf. now rewrite Ht.
Qed.

Lemma formatPhoneNumber_pattern_table_witness :
  patternTable (digitsOf (lit "(11) 9-8765"))
  = Some (formatPhoneNumber (lit "(11) 9-8765"))
  /\ formatPhoneNumber (lit "(11) 9-8765") = lit "+55 (98) 765".
Proof.
  split; [|reflexivity].
  apply (formatPhoneNumber_pattern_table (lit "(11) 9-8765")).
  vm_compute. lia.
Defined.

(** The claim of idempotence fails below three digits: the rendered
    country code is read back as two digits of the number.  The empty
    input renders as ["+55 "], which renders as ["+55 55"]. *)
Lemma formatPhoneNumber_not_idempotent :
  formatPhoneNumber (lit "") = lit "+55 "
  /\ formatPhoneNumber (formatPhoneNumber (lit "")) = lit "+55 55"
  /\ formatPhoneNumber (formatPhoneNumber (lit ""))
     <> formatPhoneNumber (lit "").
Proof. repeat split. discriminate. Qed.

(** Below three digits the mask is never a fixed point of itself: the
    output gains the two digits of the country code. *)
Lemma formatPhoneNumber_not_idempotent_below_3 (s : jsstring) :
  length (digitsOf s) <= 2 ->
  formatPhoneNumber (formatPhoneNumber s) <> formatPhoneNumber s.
Proof.
  intros Hlen.
  assert (Hd : forallb isDigit (digitsOf s) = true)
    by apply digitsOf_all_digits.
  assert (E : formatPhoneNumber s = lit "+55 " ++ digitsOf s).
  { unfold formatPhoneNumber. rewrite replace_nonDigits_digitsOf.
    apply Nat.leb_le in Hlen. now rewrite Hlen. }
  rewrite (formatPhoneNumber_digitsOf (formatPhoneNumber s)), E.
  rewrite digitsOf_app, digitsOf_idempotent.
  change (digitsOf (lit "+55 ")) with (lit "55").
  remember (digitsOf s) as d eqn:Ed. clear Ed E.
  assert (H55 : forallb isDigit (lit "55" ++ d) = true)
    by (rewrite forallb_app; apply andb_true_iff; split; trivial).
  unfold formatPhoneNumber, sliceFrom.
  rewrite replace_nonDigits_digitsOf, (digitsOf_of_digits _ H55).
  clear Hd H55. by_length d 3; try discriminate.
  cbn in Hlen. lia.
Qed.

(** C4, amended. On every string with at least three digits the mask is
    idempotent: formatting the output again, which reads its digits back,
    returns the same output. *)
Theorem formatPhoneNumber_idempotent_from_3 (s : jsstring) :
  3 <= length (digitsOf s) ->
  formatPhoneNumber (formatPhoneNumber s) = formatPhoneNumber s.
Proof.
  intros Hlen.
  rewrite (formatPhoneNumber_digitsOf (formatPhoneNumber s)).
  rewrite (formatPhoneNumber_digitsOf s).
  rewrite digitsOf_formatPhoneNumber
    by (apply digitsOf_all_digits || exact Hlen).
  assert (Hd : forallb isDigit (digitsOf s) = true)
    by apply digitsOf_all_digits.
  remember (digitsOf s) as d eqn:E. clear E.
  assert (H55 : forallb isDigit (lit "55" ++ firstn 11 (skipn 2 d)) = true).
  { rewrite forallb_app. apply andb_true_iff. split; [reflexivity|].
    now apply forallb_firstn, forallb_skipn. }
  unfold formatPhoneNumber, sliceFrom.
  rewrite !replace_nonDigits_digitsOf.
  rewrite (digitsOf_of_digits _ Hd), (digitsOf_of_digits _ H55).
  clear Hd H55. by_length d 14; try reflexivity; cbn in Hlen; lia.
Qed.

Lemma formatPhoneNumber_idempotent_from_3_witness :
  formatPhoneNumber (formatPhoneNumber (lit "119"))
  = formatPhoneNumber (lit "119").
Proof.
  apply (formatPhoneNumber_idempotent_from_3 (lit "119")).
  vm_compute. lia.
Defined.

Lemma formatPhoneNumber_length_cases (s : jsstring) :
  length (formatPhoneNumber s) <= 19
  /\ (length (formatPhoneNumber s) = 19 <-> 13 <= length (digitsOf s)).
Proof.
  unfold formatPhoneNumber, sliceFrom. rewrite replace_nonDigits_digitsOf.
  generalize (digitsOf s) as d. intros d.
  by_length d 13; cbn; (split; [lia | split; intros H; try lia]).
Qed.

Lemma trim_formatPhoneNumber (s : jsstring) :
  isFalsy (trim (formatPhoneNumber s)) = false.
Proof.
  apply trim_visible. unfold formatPhoneNumber.
  repeat match goal with |- context [if ?b then _ else _] => destruct b end;
    reflexivity.
Qed.

Lemma fullMask_length (d : jsstring) :
  length d = 13 -> length (fullMask d) = 19.
Proof. intros H. by_length d 14; try discriminate; reflexivity. Qed.

(** C10. The output of [formatPhoneNumber] has at most 19 characters, and
    exactly 19 precisely when the input holds at least 13 digits; so the
    phone condition of the submit handler lets a formatted [phoneNumber]
    pass exactly when at least 13 digits were given, which is exactly when
    it is the full mask over thirteen digits (the first thirteen of the
    input). *)
Theorem formatPhoneNumber_length_19 (s : jsstring) :
  length (formatPhoneNumber s) <= 19
  /\ (length (formatPhoneNumber s) = 19 <-> 13 <= length (digitsOf s))
  /\ (forall name pw,
        phoneRejected (mkFormData name (formatPhoneNumber s) pw) = false
        <-> 13 <= length (digitsOf s))
  /\ (forall name pw,
        phoneRejected (mkFormData name (formatPhoneNumber s) pw) = false
        <-> isFullMask (formatPhoneNumber s))
  /\ (13 <= length (digitsOf s) ->
      formatPhoneNumber s = fullMask (firstn 13 (digitsOf s))).
Proof.
  destruct (formatPhoneNumber_length_cases s) as [Hle H19].
  assert (Hrej : forall name pw,
             phoneRejected (mkFormData name (formatPhoneNumber s) pw) = false
             <-> 13 <= length (digitsOf s)).
  { intros name pw. unfold phoneRejected. cbn [phoneNumber].
    rewrite trim_formatPhoneNumber. cbn [orb].
    rewrite Nat.ltb_ge, <- H19. lia. }
  assert (Hfull : 13 <= length (digitsOf s) ->
                  formatPhoneNumber s = fullMask (firstn 13 (digitsOf s))).
  { unfold formatPhoneNumber. rewrite replace_nonDigits_digitsOf.
    generalize (digitsOf s) as d. intros d Hd.
    by_length d 13; cbn in Hd; try lia. reflexivity. }
  repeat split; try tauto; try apply Hrej.
  - intros Hacc. apply Hrej in Hacc.
    exists (firstn 13 (digitsOf s)). repeat split.
    + rewrite length_firstn. lia.
    + apply forallb_firstn, digitsOf_all_digits.
    + now apply Hfull.
  - intros [d [Hlen [_ Hmask]]]. apply Hrej, H19.
    rewrite Hmask. now apply fullMask_length.
Qed.

(** ** The submit handler *)

(** C2. With fullName "Maria Silva", phoneNumber "+55 (11) 99999-9999" and
    password "abcdef", none of the three conditions rejects; the handler
    reaches the [await] with [isLoading] true, and with the simulated
    submission it ends in success: the success toast is emitted, all three
    fields are reset to the empty string and [isLoading] is false. *)
Theorem handleSubmit_mariaSilva (sp il : bool) (ts : list Toast) :
  nameRejected mariaSilva = false
  /\ phoneRejected mariaSilva = false
  /\ passwordRejected mariaSilva = false
  /\ handleSubmit_toAwait (mkComponent mariaSilva sp il ts)
     = (mkComponent mariaSilva sp true ts, None)
  /\ handleSubmit simulatedSubmission (mkComponent mariaSilva sp il ts)
     = (mkComponent emptyFormData sp false (ts ++ [successToast]), Success).
Proof. repeat split. Qed.

Lemma handleSubmit_exits (settled : Settlement) (c : Component) :
  handleSubmit settled c
  = if nameRejected (formData c) then
      (notified (errorToast nameMessage) c, EmptyName)
    else if phoneRejected (formData c) then
      (notified (errorToast phoneMessage) c, InvalidPhone)
    else if passwordRejected (formData c) then
      (notified (errorToast passwordMessage) c, WeakPassword)
    else
      match settled with
      | Fulfilled =>
          (mkComponent emptyFormData (showPassword c) false
             (toasts c ++ [successToast]), Success)
      | Rejected =>
          (notified (errorToast failureMessage) c, SubmissionFailure)
      end.
Proof.
  unfold handleSubmit, handleSubmit_toAwait.
  destruct (nameRejected (formData c)); [reflexivity|].
  destruct (phoneRejected (formData c)); [reflexivity|].
  destruct (passwordRejected (formData c)); [reflexivity|].
  destruct settled; reflexivity.
Qed.

(** Each of the five exits is taken by some form. *)
Lemma handleSubmit_every_exit_taken :
  let form n p w := mkComponent (mkFormData n p w) false false [] in
  snd (handleSubmit Fulfilled (form [] [] [])) = EmptyName
  /\ snd (handleSubmit Fulfilled (form (lit "Ana") (lit "+55 (11)") []))
     = InvalidPhone
  /\ snd (handleSubmit Fulfilled
            (form (lit "Ana") (lit "+55 (11) 99999-9999") (lit "abc")))
     = WeakPassword
  /\ snd (handleSubmit Fulfilled
            (form (lit "Ana") (lit "+55 (11) 99999-9999") (lit "abcdef")))
     = Success
  /\ snd (handleSubmit Rejected
            (form (lit "Ana") (lit "+55 (11) 99999-9999") (lit "abcdef")))
     = SubmissionFailure.
Proof. repeat split. Qed.

(** C3. However an invocation of the submit handler ends (one of the three
    validation returns, success, or a rejected submission), [isLoading] is
    false in the state it leaves; for the part after the [await] this holds
    from any state the component is resumed in, and so also when the
    submission step throws. *)
Theorem handleSubmit_isLoading_false (settled : Settlement) (c : Component) :
  isLoading (fst (handleSubmit settled c)) = false
  /\ isLoading (fst (handleSubmit_fromAwait settled c)) = false
  /\ isLoading (fst (handleSubmit Rejected c)) = false
  /\ isLoading (fst (handleSubmit_fromAwait Rejected c)) = false.
Proof.
  rewrite !handleSubmit_exits.
  repeat split;
    repeat match goal with
      | |- context [if ?b then _ else _] => destruct b
      end;
    try destruct settled; reflexivity.
Qed.

(** C5. Whenever [fullName] trims to the empty string, the handler emits
    the name error and returns at the first check, before the [await],
    whatever [phoneNumber] and [password] hold and however a submission
    would settle; the form is left as it was. *)
Theorem handleSubmit_EmptyName (settled : Settlement) (c : Component) :
  trim (fullName (formData c)) = [] ->
  handleSubmit_toAwait c
  = (notified (errorToast nameMessage) c, Some EmptyName)
  /\ handleSubmit settled c = (notified (errorToast nameMessage) c, EmptyName).
Proof.
  intros Hname.
  assert (E : nameRejected (formData c) = true)
    by (unfold nameRejected; now rewrite Hname).
  split.
  - unfold handleSubmit_toAwait. now rewrite E.
  - rewrite handleSubmit_exits. now rewrite E.
Qed.

Lemma handleSubmit_EmptyName_witness :
  let c := mkComponent
             (mkFormData (lit "  ") (lit "+55 (11) 99999-9999")
                (lit "abcdef")) false false [] in
  handleSubmit_toAwait c
  = (notified (errorToast nameMessage) c, Some EmptyName)
  /\ handleSubmit Rejected c = (notified (errorToast nameMessage) c, EmptyName).
Proof.
  intros c. apply (handleSubmit_EmptyName Rejected c). reflexivity.
Defined.

(** A short [phoneNumber] does not always give the phone error: the name
    check comes first.  On the freshly mounted form, whose [phoneNumber] is
    empty, the handler ends with the name error. *)
Lemma short_phone_not_always_InvalidPhone :
  length (phoneNumber (formData initialComponent)) < 19
  /\ handleSubmit simulatedSubmission initialComponent
     = (notified (errorToast nameMessage) initialComponent, EmptyName)
  /\ snd (handleSubmit simulatedSubmission initialComponent) <> InvalidPhone.
Proof. repeat split. - cbn. lia. - discriminate. Qed.

(** C6, amended. Whenever [fullName] does not trim to the empty string and
    [phoneNumber] is shorter than 19 characters or trims to the empty
    string, the handler emits the phone error and returns at the second
    check, before the [await]; the form is left as it was. *)
Theorem handleSubmit_InvalidPhone (settled : Settlement) (c : Component) :
  trim (fullName (formData c)) <> [] ->
  length (phoneNumber (formData c)) < 19
  \/ trim (phoneNumber (formData c)) = [] ->
  handleSubmit_toAwait c
  = (notified (errorToast phoneMessage) c, Some InvalidPhone)
  /\ handleSubmit settled c
     = (notified (errorToast phoneMessage) c, InvalidPhone).
Proof.
  intros Hname Hphone.
  assert (E1 : nameRejected (formData c) = false).
  { unfold nameRejected. destruct (trim (fullName (formData c)));
      [congruence|reflexivity]. }
  assert (E2 : phoneRejected (formData c) = true).
  { unfold phoneRejected. apply orb_true_iff.
    destruct Hphone as [Hlen|Htrim].
    - right. now apply Nat.ltb_lt.
    - left. now rewrite Htrim. }
  split.
  - unfold handleSubmit_toAwait. now rewrite E1, E2.
  - rewrite handleSubmit_exits. now rewrite E1, E2.
Qed.

Lemma handleSubmit_InvalidPhone_witness :
  let c := mkComponent
             (mkFormData (lit "Maria Silva") (lit "+55 (11) 99999-999")
                (lit "abcdef")) false false [] in
  handleSubmit_toAwait c
  = (notified (errorToast phoneMessage) c, Some InvalidPhone)
  /\ handleSubmit Fulfilled c
     = (notified (errorToast phoneMessage) c, InvalidPhone).
Proof.
  intros c. apply (handleSubmit_InvalidPhone Fulfilled c).
  - vm_compute. discriminate.
  - left. vm_compute. lia.
Defined.

(** A short [password] does not always give the password error: the name
    and phone checks come first.  With a name, a [phoneNumber] of eight
    characters and a password of three, the handler ends with the phone
    error. *)
Lemma short_password_not_always_WeakPassword :
  let c := mkComponent
             (mkFormData (lit "Maria Silva") (lit "+55 (11)") (lit "abc"))
             false false [] in
  length (password (formData c)) < 6
  /\ handleSubmit simulatedSubmission c
     = (notified (errorToast phoneMessage) c, InvalidPhone)
  /\ snd (handleSubmit simulatedSubmission c) <> WeakPassword.
Proof. repeat split. - cbn. lia. - discriminate. Qed.

(** C7, amended. Whenever [fullName] does not trim to the empty string,
    [phoneNumber] does not trim to the empty string and has at least 19
    characters, and [password] has fewer than 6 characters or trims to the
    empty string, the handler emits the password error and returns at the
    third check, before the [await]; the form is left as it was. *)
Theorem handleSubmit_WeakPassword (settled : Settlement) (c : Component) :
  trim (fullName (formData c)) <> [] ->
  trim (phoneNumber (formData c)) <> [] ->
  19 <= length (phoneNumber (formData c)) ->
  length (password (formData c)) < 6
  \/ trim (password (formData c)) = [] ->
  handleSubmit_toAwait c
  = (notified (errorToast passwordMessage) c, Some WeakPassword)
  /\ handleSubmit settled c
     = (notified (errorToast passwordMessage) c, WeakPassword).
Proof.
  intros Hname Hphone Hlen Hpw.
  assert (E1 : nameRejected (formData c) = false).
  { unfold nameRejected. destruct (trim (fullName (formData c)));
      [congruence|reflexivity]. }
  assert (E2 : phoneRejected (formData c) = false).
  { unfold phoneRejected. apply orb_false_iff. split.
    - destruct (trim (phoneNumber (formData c))); [congruence|reflexivity].
    - now apply Nat.ltb_ge. }
  assert (E3 : passwordRejected (formData c) = true).
  { unfold passwordRejected. apply orb_true_iff.
    destruct Hpw as [Hshort|Htrim].
    - right. now apply Nat.ltb_lt.
    - left. now rewrite Htrim. }
  split.
  - unfold handleSubmit_toAwait. now rewrite E1, E2, E3.
  - rewrite handleSubmit_exits. now rewrite E1, E2, E3.
Qed.

Lemma handleSubmit_WeakPassword_witness :
  let c := mkComponent
             (mkFormData (lit "Maria Silva") (lit "+55 (11) 99999-9999")
                (lit "abcde")) false false [] in
  handleSubmit_toAwait c
  = (notified (errorToast passwordMessage) c, Some WeakPassword)
  /\ handleSubmit Fulfilled c
     = (notified (errorToast passwordMessage) c, WeakPassword).
Proof.
  intros c. apply (handleSubmit_WeakPassword Fulfilled c).
  - vm_compute. discriminate.
  - vm_compute. discriminate.
  - vm_compute. lia.
  - left. vm_compute. lia.
Defined.

(** C8. When the awaited submission is rejected, the handler emits the
    generic error toast and leaves [fullName], [phoneNumber] and [password]
    as they are: from whatever state the handler is resumed in, and for a
    whole invocation on a form that passes the three checks. *)
Theorem handleSubmit_SubmissionFailure (c : Component) :
  nameRejected (formData c) = false ->
  phoneRejected (formData c) = false ->
  passwordRejected (formData c) = false ->
  handleSubmit Rejected c
  = (notified (errorToast failureMessage) c, SubmissionFailure)
  /\ formData (fst (handleSubmit Rejected c)) = formData c
  /\ toasts (fst (handleSubmit Rejected c))
     = toasts c ++ [errorToast failureMessage]
  /\ forall c',
       handleSubmit_fromAwait Rejected c'
       = (notified (errorToast failureMessage) c', SubmissionFailure).
Proof.
  intros E1 E2 E3. rewrite handleSubmit_exits, E1, E2, E3.
  repeat split.
Qed.

Lemma handleSubmit_SubmissionFailure_witness :
  formData
    (fst (handleSubmit Rejected (mkComponent mariaSilva false false [])))
  = mariaSilva.
Proof.
  apply (handleSubmit_SubmissionFailure
           (mkComponent mariaSilva false false []));
    reflexivity.
Defined.

(** ** The phone field *)

Lemma dispatch_phoneFormatted (e : Event) (c : Component) :
  phoneFormatted c -> phoneFormatted (dispatch e c).
Proof.
  unfold phoneFormatted. intros Hc.
  destruct e as [v|v|v| | |settled]; cbn.
  - exact Hc.
  - right. now exists v.
  - exact Hc.
  - exact Hc.
  - destruct (isLoading c); [exact Hc|].
    unfold handleSubmit_toAwait.
    repeat match goal with
      | |- context [if ?b then _ else _] => destruct b
      end; exact Hc.
  - destruct (isLoading c); [|exact Hc].
    destruct settled; cbn; [now left|exact Hc].
Qed.

(** C9. In every state the component reaches from its initial state,
    [phoneNumber] is the empty string or an output of [formatPhoneNumber]:
    the initial state and the reset after a success set it to the empty
    string, and the only other write passes the input through
    [formatPhoneNumber]. *)
Theorem phoneNumber_always_formatted (events : list Event) :
  phoneFormatted (run events initialComponent)
  /\ phoneNumber (formData initialComponent) = []
  /\ (forall c, phoneNumber
                  (formData (fst (handleSubmit_fromAwait Fulfilled c))) = [])
  /\ (forall value c,
        phoneNumber (formData (dispatch (ChangePhoneNumber value) c))
        = formatPhoneNumber value).
Proof.
  repeat split.
  assert (H : forall c, phoneFormatted c -> phoneFormatted (run events c)).
  { unfold run. induction events as [|e events IH]; intros c Hc; cbn.
    - exact Hc.
    - apply IH. now apply dispatch_phoneFormatted. }
  apply H. now left.
Qed.

(** * Further properties of the phone mask *)

Lemma digitsOf_cons (c : codeUnit) (s : jsstring) :
  digitsOf (c :: s) = if isDigit c then c :: digitsOf s else digitsOf s.
Proof. reflexivity. Qed.

Lemma digitsOf_formatPhoneNumber_short (d : jsstring) :
  length d <= 2 ->
  digitsOf (formatPhoneNumber d) = lit "55" ++ digitsOf d.
Proof.
  intros Hlen. unfold formatPhoneNumber.
  rewrite replace_nonDigits_digitsOf.
  assert (H : (length (digitsOf d) <=? 2) = true).
  { apply Nat.leb_le. unfold digitsOf.
    pose proof (filter_length_le isDigit d). lia. }
  rewrite H, digitsOf_app, digitsOf_idempotent. reflexivity.
Qed.

Lemma formatPhoneNumber_firstn_13 (s : jsstring) :
  formatPhoneNumber s = formatPhoneNumber (firstn 13 (digitsOf s)).
Proof.
  rewrite (formatPhoneNumber_digitsOf s).
  assert (Hd : forallb isDigit (firstn 13 (digitsOf s)) = true)
    by apply forallb_firstn, digitsOf_all_digits.
  assert (Hs : forallb isDigit (digitsOf s) = true)
    by apply digitsOf_all_digits.
  unfold formatPhoneNumber, sliceFrom.
  rewrite !replace_nonDigits_digitsOf.
  rewrite (digitsOf_of_digits _ Hd), (digitsOf_of_digits _ Hs).
  clear Hd Hs. generalize (digitsOf s) as d. intros d.
  by_length d 14; reflexivity.
Qed.

Lemma formatPhoneNumber_skip_2 (d : jsstring) :
  forallb isDigit d = true ->
  3 <= length d ->
  formatPhoneNumber d = formatPhoneNumber (lit "55" ++ skipn 2 d).
Proof.
  intros Hd Hlen.
  assert (H55 : forallb isDigit (lit "55" ++ skipn 2 d) = true).
  { rewrite forallb_app. apply andb_true_iff. split; [reflexivity|].
    now apply forallb_skipn. }
  unfold formatPhoneNumber, sliceFrom.
  rewrite !replace_nonDigits_digitsOf.
  rewrite (digitsOf_of_digits _ Hd), (digitsOf_of_digits _ H55).
  clear Hd H55. by_length d 14; try reflexivity; cbn in Hlen; lia.
Qed.

(** X1. Digits beyond the thirteenth are discarded: the output for any
    string is the output for its first thirteen digits. *)
Theorem formatPhoneNumber_truncates (s : jsstring) :
  formatPhoneNumber s = formatPhoneNumber (firstn 13 (digitsOf s))
  /\ forall extra,
       13 <= length (digitsOf s) ->
       formatPhoneNumber (s ++ extra) = formatPhoneNumber s.
Proof.
  split; [apply formatPhoneNumber_firstn_13|].
  intros extra Hlen.
  rewrite (formatPhoneNumber_firstn_13 (s ++ extra)).
  rewrite (formatPhoneNumber_firstn_13 s).
  rewrite digitsOf_app, firstn_app.
  replace (13 - length (digitsOf s)) with 0 by lia.
  cbn [firstn]. now rewrite app_nil_r.
Qed.

(** X2. From three digits on the first two digits are never shown: two
    strings whose digits agree after the second one get the same output,
    whatever their first two digits are. *)
Theorem formatPhoneNumber_drops_first_two (s t : jsstring) :
  3 <= length (digitsOf s) ->
  3 <= length (digitsOf t) ->
  skipn 2 (digitsOf s) = skipn 2 (digitsOf t) ->
  formatPhoneNumber s = formatPhoneNumber t.
Proof.
  intros Hs Ht E.
  rewrite (formatPhoneNumber_digitsOf s), (formatPhoneNumber_digitsOf t).
  rewrite (formatPhoneNumber_skip_2 (digitsOf s))
    by (apply digitsOf_all_digits || exact Hs).
  rewrite (formatPhoneNumber_skip_2 (digitsOf t))
    by (apply digitsOf_all_digits || exact Ht).
  now rewrite E.
Qed.

Lemma formatPhoneNumber_drops_first_two_witness :
  formatPhoneNumber (lit "11987654321") = formatPhoneNumber (lit "55987654321")
  /\ formatPhoneNumber (lit "11987654321") = lit "+55 (98) 76543-21".
Proof.
  split; [|reflexivity].
  apply (formatPhoneNumber_drops_first_two
           (lit "11987654321") (lit "55987654321")).
  - vm_compute. lia.
  - vm_compute. lia.
  - reflexivity.
Defined.

(** X3. Reading the digits back from the output gives the country code 55
    followed by the input's digits when there are at most two of them, and
    by its third to thirteenth digits otherwise. *)
Theorem digitsOf_formatPhoneNumber_roundtrip (s : jsstring) :
  digitsOf (formatPhoneNumber s)
  = lit "55"
    ++ (if length (digitsOf s) <=? 2 then digitsOf s
        else firstn 11 (skipn 2 (digitsOf s))).
Proof.
  rewrite (formatPhoneNumber_digitsOf s).
  destruct (length (digitsOf s) <=? 2) eqn:E.
  - apply Nat.leb_le in E.
    rewrite digitsOf_formatPhoneNumber_short by exact E.
    now rewrite digitsOf_idempotent.
  - apply Nat.leb_gt in E.
    apply digitsOf_formatPhoneNumber; [apply digitsOf_all_digits|lia].
Qed.

(** X4. The output always begins with ["+55 "], so [handlePhoneChange]
    never stores an empty or blank [phoneNumber]: once the phone field has
    been edited it cannot be emptied again. *)
Theorem handlePhoneChange_never_blank (value : jsstring) (c : Component) :
  firstn 4 (formatPhoneNumber value) = lit "+55 "
  /\ phoneNumber (formData (handlePhoneChange value c))
     = formatPhoneNumber value
  /\ trim (phoneNumber (formData (handlePhoneChange value c))) <> [].
Proof.
  split; [|split].
  - unfold formatPhoneNumber.
    repeat match goal with
      | |- context [if ?b then _ else _] => destruct b
      end; reflexivity.
  - reflexivity.
  - change (phoneNumber (formData (handlePhoneChange value c)))
      with (formatPhoneNumber value).
    intros H. pose proof (trim_formatPhoneNumber value) as Ht.
    rewrite H in Ht. discriminate.
Qed.

(** X5. The length of the output is determined by the number [n] of digits
    of the input: [4 + n] up to four digits, [5 + n] from five to nine,
    [6 + n] from ten to twelve, and 19 from thirteen on. *)
Theorem formatPhoneNumber_length_table (s : jsstring) :
  length (formatPhoneNumber s)
  = let n := length (digitsOf s) in
    if n <=? 4 then 4 + n
    else if n <=? 9 then 5 + n
    else if n <=? 12 then 6 + n
    else 19.
Proof.
  unfold formatPhoneNumber, sliceFrom. rewrite replace_nonDigits_digitsOf.
  generalize (digitsOf s) as d. intros d.
  by_length d 13; reflexivity.
Qed.

Lemma formatPhoneNumber_truncates_witness :
  formatPhoneNumber (lit "5511987654321" ++ lit "99")
  = formatPhoneNumber (lit "5511987654321").
Proof.
  apply (formatPhoneNumber_truncates (lit "5511987654321")).
  vm_compute. lia.
Defined.

(** * Typing and deleting in the phone field *)

Lemma typeKeys_snoc (keys : list codeUnit) (key : codeUnit) (c : Component) :
  typeKeys (keys ++ [key]) c = typeKey key (typeKeys keys c).
Proof. unfold typeKeys. now rewrite fold_left_app. Qed.

Lemma phoneNumber_typeKey (key : codeUnit) (c : Component) :
  phoneNumber (formData (typeKey key c))
  = formatPhoneNumber (phoneNumber (formData c) ++ [key]).
Proof. reflexivity. Qed.

(** The component with another [phoneNumber]. *)
Lemma typeKeys_frame (keys : list codeUnit) (c : Component) :
  fullName (formData (typeKeys keys c)) = fullName (formData c)
  /\ password (formData (typeKeys keys c)) = password (formData c)
  /\ showPassword (typeKeys keys c) = showPassword c
  /\ isLoading (typeKeys keys c) = isLoading c
  /\ toasts (typeKeys keys c) = toasts c.
Proof.
  induction keys as [|key keys IH] using rev_ind; [repeat split|].
  rewrite typeKeys_snoc. exact IH.
Qed.

(** A digit typed after a rendered mask of at least three digits. *)
Lemma formatPhoneNumber_type_digit (d : jsstring) (key : codeUnit) :
  forallb isDigit d = true ->
  isDigit key = true ->
  2 <= length d ->
  formatPhoneNumber (formatPhoneNumber (lit "55" ++ d) ++ [key])
  = formatPhoneNumber (lit "55" ++ d ++ [key]).
Proof.
  intros Hd Hkey Hlen.
  assert (H55 : forallb isDigit (lit "55" ++ d) = true)
    by (rewrite forallb_app; apply andb_true_iff; split; trivial).
  rewrite (formatPhoneNumber_digitsOf (_ ++ [key])).
  rewrite digitsOf_app, digitsOf_formatPhoneNumber
    by (exact H55 || (rewrite length_app; cbn; lia)).
  rewrite digitsOf_cons, Hkey.
  change (skipn 2 (lit "55" ++ d)) with d.
  change (digitsOf []) with (@nil codeUnit).
  rewrite (formatPhoneNumber_firstn_13 ((lit "55" ++ firstn 11 d) ++ [key])).
  rewrite (formatPhoneNumber_firstn_13 (lit "55" ++ d ++ [key])).
  f_equal.
  assert (Hall : forall x, forallb isDigit x = true ->
                           forallb isDigit (x ++ [key]) = true).
  { intros x Hx. rewrite forallb_app. apply andb_true_iff.
    split; [exact Hx|]. cbn. now rewrite Hkey. }
  rewrite !digitsOf_of_digits.
  - rewrite <- app_assoc.
    change (firstn 13 (lit "55" ++ ?x)) with (lit "55" ++ firstn 11 x).
    f_equal. rewrite !firstn_app, firstn_firstn, length_firstn.
    destruct (Nat.le_gt_cases 11 (length d)) as [Hge|Hlt].
    + replace (Nat.min 11 11) with 11 by reflexivity.
      replace (11 - Nat.min 11 (length d)) with 0 by lia.
      replace (11 - length d) with 0 by lia. reflexivity.
    + replace (Nat.min 11 11) with 11 by reflexivity.
      rewrite (firstn_all2 d) by lia.
      replace (Nat.min 11 (length d)) with (length d) by lia.
      reflexivity.
  - rewrite forallb_app. apply andb_true_iff. split; [reflexivity|].
    now apply Hall.
  - apply Hall. rewrite forallb_app. apply andb_true_iff.
    split; [reflexivity|]. now apply forallb_firstn.
Qed.

Lemma formatPhoneNumber_full (d : jsstring) :
  forallb isDigit d = true ->
  13 <= length d ->
  formatPhoneNumber d = fullMask d.
Proof.
  intros Hd Hlen. unfold formatPhoneNumber.
  rewrite replace_nonDigits_digitsOf, (digitsOf_of_digits d Hd).
  clear Hd. by_length d 13; cbn in Hlen; try lia. reflexivity.
Qed.

Lemma phoneNumber_typeKeys (keys : list codeUnit) (c : Component) :
  phoneNumber (formData c) = [] ->
  forallb isDigit keys = true ->
  2 <= length keys ->
  phoneNumber (formData (typeKeys keys c))
  = formatPhoneNumber (lit "55" ++ keys).
Proof.
  intros Hempty.
  induction keys as [|key ks IH] using rev_ind; intros Hd Hlen.
  { cbn in Hlen. lia. }
  rewrite forallb_app in Hd. apply andb_true_iff in Hd.
  destruct Hd as [Hks Hkey]. cbn in Hkey. rewrite andb_true_r in Hkey.
  rewrite typeKeys_snoc, phoneNumber_typeKey.
  destruct ks as [|k1 [|k2 rest]].
  - cbn in Hlen. lia.
  - cbn in Hks. rewrite andb_true_r in Hks.
    cbn [typeKeys fold_left]. rewrite phoneNumber_typeKey, Hempty.
    rewrite (formatPhoneNumber_digitsOf (_ ++ [key])).
    rewrite digitsOf_app, digitsOf_formatPhoneNumber_short
      by (cbn; lia).
    cbn [app]. rewrite !digitsOf_cons, Hks, Hkey. reflexivity.
  - rewrite IH by (exact Hks || (cbn; lia)).
    apply formatPhoneNumber_type_digit; [exact Hks|exact Hkey|cbn; lia].
Qed.

(** X6. Digit keys typed one after the other into an empty phone field:
    from the second key on, the field holds the mask of 55 followed by the
    keys typed so far, so eleven keys fill the mask completely and further
    keys change nothing. *)
Theorem typeKeys_phoneNumber (keys : list codeUnit) (c : Component) :
  phoneNumber (formData c) = [] ->
  forallb isDigit keys = true ->
  2 <= length keys ->
  phoneNumber (formData (typeKeys keys c))
  = formatPhoneNumber (lit "55" ++ keys)
  /\ (11 <= length keys ->
      phoneNumber (formData (typeKeys keys c)) = fullMask (lit "55" ++ keys)
      /\ forall key, isDigit key = true ->
           phoneNumber (formData (typeKey key (typeKeys keys c)))
           = phoneNumber (formData (typeKeys keys c))).
Proof.
  intros Hempty Hd Hlen.
  pose proof (phoneNumber_typeKeys keys c Hempty Hd Hlen) as Hmain.
  split; [exact Hmain|].
  intros H11.
  assert (H55 : forallb isDigit (lit "55" ++ keys) = true)
    by (rewrite forallb_app; apply andb_true_iff; split; trivial).
  split.
  - rewrite Hmain.
    apply formatPhoneNumber_full; [exact H55|].
    rewrite length_app. cbn. lia.
  - intros key Hkey. rewrite phoneNumber_typeKey.
    rewrite Hmain.
    rewrite formatPhoneNumber_type_digit by (assumption || lia).
    rewrite (formatPhoneNumber_firstn_13 (lit "55" ++ keys ++ [key])).
    rewrite (formatPhoneNumber_firstn_13 (lit "55" ++ keys)).
    f_equal. rewrite !digitsOf_of_digits.
    + change (firstn 13 (lit "55" ++ ?x)) with (lit "55" ++ firstn 11 x).
      f_equal. rewrite firstn_app.
      replace (11 - length keys) with 0 by lia.
      cbn [firstn]. now rewrite app_nil_r.
    + exact H55.
    + rewrite forallb_app. apply andb_true_iff. split; [reflexivity|].
      rewrite forallb_app. apply andb_true_iff. split; [exact Hd|].
      cbn. now rewrite Hkey.
Qed.

Lemma typeKeys_phoneNumber_witness :
  phoneNumber (formData (typeKeys (lit "11987654321") initialComponent))
  = lit "+55 (11) 98765-4321".
Proof.
  destruct (typeKeys_phoneNumber (lit "11987654321") initialComponent)
    as [H _].
  - reflexivity.
  - reflexivity.
  - vm_compute. lia.
  - rewrite H. reflexivity.
Defined.

(** Turns [forallb isDigit [x; y; ...] = true] into one fact per digit. *)
Ltac split_digits H :=
  cbn [forallb] in H;
  repeat (apply andb_prop in H;
          let Hx := fresh "Hx" in destruct H as [Hx H]).

(** Evaluates [digitsOf] on a list whose spine is known, using the digit
    facts at hand for its variables. *)
Ltac eval_digitsOf :=
  repeat match goal with
    | |- context [digitsOf (?c :: ?s)] =>
        rewrite (digitsOf_cons c s);
        first [ match goal with
                | H : isDigit c = true |- _ => rewrite H
                end
              | let b := eval vm_compute in (isDigit c) in
                change (isDigit c) with b ];
        cbv iota
    | |- context [digitsOf []] =>
        change (digitsOf []) with (@nil codeUnit)
    end.

(** Reduces a goal about masks of the digits of [s] to one about an
    explicit digit list of each length below [n], and of length at least
    [n]. *)
Ltac mask_cases s n :=
  rewrite ?(formatPhoneNumber_digitsOf s);
  let d := fresh "d" in
  let Hd := fresh "Hd" in
  pose proof (digitsOf_all_digits s) as Hd;
  remember (digitsOf s) as d eqn:Ed; clear Ed;
  unfold backspace, formatPhoneNumber, sliceFrom;
  rewrite ?replace_nonDigits_digitsOf;
  rewrite ?(digitsOf_of_digits d Hd);
  by_length d n; split_digits Hd.

(** X7. With three or four digits in the field, backspace at the end of
    the field deletes nothing: the closing parenthesis it removes is put
    back and the mask is unchanged. *)
Theorem backspace_stuck_at_parenthesis (s : jsstring) :
  3 <= length (digitsOf s) <= 4 ->
  formatPhoneNumber (backspace (formatPhoneNumber s)) = formatPhoneNumber s.
Proof.
  intros Hlen. mask_cases s 5; cbn in Hlen; try lia;
    cbn -[digitsOf isDigit]; eval_digitsOf; reflexivity.
Qed.

Lemma backspace_stuck_at_parenthesis_witness :
  formatPhoneNumber (backspace (lit "+55 (11)")) = lit "+55 (11)".
Proof.
  apply (backspace_stuck_at_parenthesis (lit "+55 (11)")).
  vm_compute. lia.
Defined.

(** X8. With five or more digits in the field, backspace at the end of the
    field deletes exactly the last digit shown: the new mask is the mask of
    the digits shown before without the last one. *)
Theorem backspace_deletes_last_digit (s : jsstring) :
  5 <= length (digitsOf s) ->
  formatPhoneNumber (backspace (formatPhoneNumber s))
  = formatPhoneNumber (removelast (digitsOf (formatPhoneNumber s))).
Proof.
  intros Hlen. mask_cases s 14; cbn in Hlen; try lia;
    repeat (progress (cbn -[digitsOf isDigit]; eval_digitsOf));
    reflexivity.
Qed.

Lemma backspace_deletes_last_digit_witness :
  formatPhoneNumber (backspace (formatPhoneNumber (lit "+55 (11) 98765-4")))
  = lit "+55 (11) 98765".
Proof.
  rewrite (backspace_deletes_last_digit (lit "+55 (11) 98765-4")).
  - reflexivity.
  - vm_compute. lia.
Defined.

(** X9. With at most one digit in the field, backspace at the end of the
    field does not shorten it: the rendered country code is read back as
    digits and the field becomes ["+55 55"]. *)
Theorem backspace_grows_below_two_digits (s : jsstring) :
  length (digitsOf s) <= 1 ->
  formatPhoneNumber (backspace (formatPhoneNumber s)) = lit "+55 55".
Proof.
  intros Hlen. mask_cases s 2; cbn in Hlen; try lia;
    repeat (progress (cbn -[digitsOf isDigit]; eval_digitsOf));
    reflexivity.
Qed.

Lemma backspace_grows_below_two_digits_witness :
  formatPhoneNumber (backspace (formatPhoneNumber (lit "7"))) = lit "+55 55".
Proof.
  apply (backspace_grows_below_two_digits (lit "7")).
  vm_compute. lia.
Defined.

(** * Further properties of the submit handler *)

Lemma trimStart_blank (s : jsstring) : blank s = true -> trimStart s = [].
Proof.
  unfold blank. induction s as [|c s IH]; [reflexivity|].
  cbn. destruct (isWhiteSpace c); [exact IH|discriminate].
Qed.

Lemma not_blank_visible (s : jsstring) :
  blank s = false -> existsb visible s = true.
Proof.
  unfold blank. induction s as [|c s IH]; [discriminate|].
  cbn. unfold visible at 1. destruct (isWhiteSpace c); [exact IH|reflexivity].
Qed.

(** [!s.trim()] holds exactly for the strings made of white space only. *)
Lemma isFalsy_trim (s : jsstring) : isFalsy (trim s) = blank s.
Proof.
  destruct (blank s) eqn:E.
  - unfold trim, trimEnd. now rewrite (trimStart_blank s E).
  - now apply trim_visible, not_blank_visible.
Qed.

(** X10. The handler reaches the [await] exactly when [fullName] has a
    character that is not white space, [phoneNumber] has one and is at
    least 19 characters long, and [password] has one and is at least 6
    characters long, lengths being those of the untrimmed values; it has
    then only set [isLoading]. *)
Theorem handleSubmit_toAwait_accepts_iff (c : Component) :
  handleSubmit_toAwait c = (setIsLoading true c, None)
  <-> blank (fullName (formData c)) = false
      /\ blank (phoneNumber (formData c)) = false
      /\ 19 <= length (phoneNumber (formData c))
      /\ blank (password (formData c)) = false
      /\ 6 <= length (password (formData c)).
Proof.
  unfold handleSubmit_toAwait, nameRejected, phoneRejected, passwordRejected.
  rewrite !isFalsy_trim.
  destruct (blank (fullName (formData c))).
  { split; [discriminate|intros [H _]; discriminate]. }
  destruct (blank (phoneNumber (formData c))).
  { split; [discriminate|intros [_ [H _]]; discriminate]. }
  cbn [orb].
  destruct (Nat.ltb_spec (length (phoneNumber (formData c))) 19).
  { split; [discriminate|intros [_ [_ [H' _]]]; lia]. }
  destruct (blank (password (formData c))).
  { split; [discriminate|intros [_ [_ [_ [H' _]]]]; discriminate]. }
  cbn [orb].
  destruct (Nat.ltb_spec (length (password (formData c))) 6).
  { split; [discriminate|intros [_ [_ [_ [_ H']]]]; lia]. }
  split; [intros _; repeat split; assumption|reflexivity].
Qed.

(** X11. An invocation of the submit handler never changes [showPassword]
    and appends exactly one toast.  When it ends in success the toast is
    the success toast, the submission was fulfilled and the form is reset;
    otherwise the toast is an error toast and the form is as it was. *)
Theorem handleSubmit_frame (settled : Settlement) (c : Component) :
  showPassword (fst (handleSubmit settled c)) = showPassword c
  /\ length (toasts (fst (handleSubmit settled c))) = S (length (toasts c))
  /\ (snd (handleSubmit settled c) = Success ->
      settled = Fulfilled
      /\ formData (fst (handleSubmit settled c)) = emptyFormData
      /\ toasts (fst (handleSubmit settled c)) = toasts c ++ [successToast])
  /\ (snd (handleSubmit settled c) <> Success ->
      formData (fst (handleSubmit settled c)) = formData c
      /\ exists msg,
           toasts (fst (handleSubmit settled c))
           = toasts c ++ [errorToast msg]).
Proof.
  rewrite handleSubmit_exits.
  destruct (nameRejected (formData c));
    [|destruct (phoneRejected (formData c));
      [|destruct (passwordRejected (formData c)); [|destruct settled]]];
    cbn [fst snd notified showPassword toasts formData];
    rewrite ?length_app; cbn [length];
    (split; [reflexivity|split; [lia|split]]);
    try (intros H; discriminate H);
    try (intros _; split; [reflexivity|eexists; reflexivity]);
    try (intros _; repeat split; reflexivity);
    try (intros H; exfalso; apply H; reflexivity).
Qed.

Lemma handleSubmit_frame_witness :
  formData
    (fst (handleSubmit Fulfilled (mkComponent mariaSilva true false [])))
  = emptyFormData.
Proof.
  apply (handleSubmit_frame Fulfilled (mkComponent mariaSilva true false [])).
  reflexivity.
Defined.

(** * The component as a whole *)

Lemma run_app (es es' : list Event) (c : Component) :
  run (es ++ es') c = run es' (run es c).
Proof. unfold run. apply fold_left_app. Qed.

Lemma run_phoneFormatted (events : list Event) (c : Component) :
  phoneFormatted c -> phoneFormatted (run events c).
Proof.
  revert c. induction events as [|e events IH]; intros c Hc; cbn.
  - exact Hc.
  - apply IH. now apply dispatch_phoneFormatted.
Qed.

Lemma phoneRejected_formatPhoneNumber (s name pw : jsstring) :
  phoneRejected (mkFormData name (formatPhoneNumber s) pw) = false
  <-> isFullMask (formatPhoneNumber s).
Proof.
  destruct (formatPhoneNumber_length_cases s) as [Hle H19].
  unfold phoneRejected. cbn [phoneNumber].
  rewrite trim_formatPhoneNumber. cbn [orb]. rewrite Nat.ltb_ge.
  split.
  - intros Hlen. assert (H13 : 13 <= length (digitsOf s)) by (apply H19; lia).
    exists (firstn 13 (digitsOf s)). repeat split.
    + rewrite length_firstn. lia.
    + apply forallb_firstn, digitsOf_all_digits.
    + rewrite (formatPhoneNumber_firstn_13 s).
      apply formatPhoneNumber_full.
      * apply forallb_firstn, digitsOf_all_digits.
      * rewrite length_firstn. lia.
  - intros [d [Hlen [_ Hmask]]]. rewrite Hmask, fullMask_length; trivial.
Qed.

(** X12. In every state the component reaches from its initial state, the
    phone check of the submit handler (non-blank and at least 19
    characters) lets [phoneNumber] pass exactly when it is the full mask
    over thirteen digits: on reachable states the length check is a
    structural check. *)
Theorem reachable_phone_check_is_full_mask (events : list Event) :
  phoneRejected (formData (run events initialComponent)) = false
  <-> isFullMask (phoneNumber (formData (run events initialComponent))).
Proof.
  assert (H : phoneFormatted (run events initialComponent))
    by (apply run_phoneFormatted; now left).
  destruct (formData (run events initialComponent)) as [name phone pw] eqn:E.
  unfold phoneFormatted in H. rewrite E in H. cbn [phoneNumber] in *.
  destruct H as [H|[value H]]; subst phone.
  - split; [discriminate|].
    intros [d [Hlen [_ Hmask]]].
    apply (f_equal (@length _)) in Hmask.
    rewrite fullMask_length in Hmask by exact Hlen. discriminate.
  - apply phoneRejected_formatPhoneNumber.
Qed.

Lemma dispatch_edit_setIsLoading (e : Event) (b : bool) (c : Component) :
  isEdit e = true ->
  dispatch e (setIsLoading b c) = setIsLoading b (dispatch e c).
Proof. destruct e; try discriminate; reflexivity. Qed.

Lemma run_edits_setIsLoading (edits : list Event) (b : bool) (c : Component) :
  forallb isEdit edits = true ->
  run edits (setIsLoading b c) = setIsLoading b (run edits c).
Proof.
  revert c. induction edits as [|e edits IH]; intros c H; [reflexivity|].
  cbn in H. apply andb_true_iff in H. destruct H as [He Hes].
  change (run (e :: edits) ?x) with (run edits (dispatch e x)).
  rewrite dispatch_edit_setIsLoading by exact He. now apply IH.
Qed.

Lemma run_edits_frame (edits : list Event) (c : Component) :
  forallb isEdit edits = true ->
  isLoading (run edits c) = isLoading c /\ toasts (run edits c) = toasts c.
Proof.
  revert c. induction edits as [|e edits IH]; intros c H; [now split|].
  cbn in H. apply andb_true_iff in H. destruct H as [He Hes].
  change (run (e :: edits) c) with (run edits (dispatch e c)).
  destruct (IH (dispatch e c) Hes) as [H1 H2]. rewrite H1, H2.
  destruct e; try discriminate; now split.
Qed.

Lemma handleSubmit_toAwait_suspended (c : Component) :
  snd (handleSubmit_toAwait c) = None ->
  handleSubmit_toAwait c = (setIsLoading true c, None).
Proof.
  unfold handleSubmit_toAwait.
  repeat match goal with
    | |- context [if ?b then _ else _] => destruct b
    end; try discriminate; reflexivity.
Qed.

(** X13. Edits made while a submission is pending do not affect it and are
    not re-validated: when the submission is fulfilled the form is reset
    and the edits are lost, whatever they were; when it is rejected the
    form keeps the edited values.  Either way one toast is added and
    [isLoading] ends false. *)
Theorem edits_while_pending
  (edits : list Event) (settled : Settlement) (c : Component) :
  forallb isEdit edits = true ->
  isLoading c = false ->
  snd (handleSubmit_toAwait c) = None ->
  run (SubmitForm :: edits ++ [SubmissionSettled settled]) c
  = match settled with
    | Fulfilled =>
        mkComponent emptyFormData (showPassword (run edits c)) false
          (toasts c ++ [successToast])
    | Rejected =>
        mkComponent (formData (run edits c)) (showPassword (run edits c))
          false (toasts c ++ [errorToast failureMessage])
    end.
Proof.
  intros Hedits Hidle Hok.
  change (run (SubmitForm :: edits ++ [SubmissionSettled settled]) c)
    with (run (edits ++ [SubmissionSettled settled]) (dispatch SubmitForm c)).
  cbn [dispatch]. rewrite Hidle, (handleSubmit_toAwait_suspended c Hok).
  cbn [fst]. rewrite run_app, run_edits_setIsLoading by exact Hedits.
  destruct (run_edits_frame edits c Hedits) as [_ Htoasts].
  remember (run edits c) as c' eqn:Ec'. clear Ec'.
  destruct c' as [fd sp il ts]. cbn [toasts] in Htoasts. subst ts.
  destruct settled; reflexivity.
Qed.

Lemma edits_while_pending_witness :
  run [SubmitForm; ChangeFullName (lit "Ana"); ChangePassword [];
       SubmissionSettled Rejected]
    (mkComponent mariaSilva false false [])
  = mkComponent
      (mkFormData (lit "Ana") (lit "+55 (11) 99999-9999") [])
      false false [errorToast failureMessage].
Proof.
  apply (edits_while_pending
           [ChangeFullName (lit "Ana"); ChangePassword []] Rejected
           (mkComponent mariaSilva false false []));
    reflexivity.
Defined.

(** X14. A whole onboarding from the freshly mounted form: a name that is
    not blank, at least eleven digit keys typed into the phone field and a
    password of at least six characters that is not blank pass the three
    checks; the submission is then pending with no toast emitted, and once
    fulfilled the component is the initial one again, with the success
    toast as its only notification. *)
Theorem onboarding_cycle (name pw : jsstring) (keys : list codeUnit) :
  blank name = false ->
  forallb isDigit keys = true ->
  11 <= length keys ->
  blank pw = false ->
  6 <= length pw ->
  let c3 := dispatch (ChangePassword pw)
              (typeKeys keys
                 (dispatch (ChangeFullName name) initialComponent)) in
  c3 = mkComponent (mkFormData name (fullMask (lit "55" ++ keys)) pw)
         false false []
  /\ dispatch SubmitForm c3 = setIsLoading true c3
  /\ dispatch (SubmissionSettled Fulfilled) (dispatch SubmitForm c3)
     = mkComponent emptyFormData false false [successToast].
Proof.
  intros Hname Hkeys Hlen Hpw Hpwlen c3.
  set (c1 := dispatch (ChangeFullName name) initialComponent) in *.
  assert (H55 : forallb isDigit (lit "55" ++ keys) = true)
    by (rewrite forallb_app; apply andb_true_iff; split; trivial).
  assert (Hphone : phoneNumber (formData (typeKeys keys c1))
                   = fullMask (lit "55" ++ keys)).
  { rewrite phoneNumber_typeKeys by (reflexivity || assumption || lia).
    apply formatPhoneNumber_full; [exact H55|].
    rewrite length_app. cbn. lia. }
  assert (Hc3 : c3 = mkComponent
                       (mkFormData name (fullMask (lit "55" ++ keys)) pw)
                       false false []).
  { subst c3. destruct (typeKeys_frame keys c1) as [Hn [_ [Hs [Hl Ht]]]].
    destruct (typeKeys keys c1) as [[n p w] sp il ts].
    cbn in Hn, Hs, Hl, Ht, Hphone. subst. reflexivity. }
  assert (Hok : handleSubmit_toAwait c3 = (setIsLoading true c3, None)).
  { apply handleSubmit_toAwait_accepts_iff. rewrite Hc3.
    cbn [formData fullName phoneNumber password].
    assert (Hfull : fullMask (lit "55" ++ keys)
                    = formatPhoneNumber (lit "55" ++ keys)).
    { symmetry. apply formatPhoneNumber_full; [exact H55|].
      rewrite length_app. cbn. lia. }
    split; [exact Hname|]. split; [reflexivity|].
    split; [|split; assumption].
    rewrite Hfull.
    destruct (formatPhoneNumber_length_cases (lit "55" ++ keys))
      as [_ H19].
    rewrite (proj2 H19); [lia|].
    rewrite digitsOf_of_digits by exact H55.
    rewrite length_app. cbn. lia. }
  split; [exact Hc3|].
  assert (Hsubmit : dispatch SubmitForm c3 = setIsLoading true c3).
  { cbn [dispatch]. rewrite Hok. rewrite Hc3 at 1. reflexivity. }
  split; [exact Hsubmit|].
  rewrite Hsubmit, Hc3. reflexivity.
Qed.

Lemma onboarding_cycle_witness :
  dispatch (SubmissionSettled Fulfilled)
    (dispatch SubmitForm
       (dispatch (ChangePassword (lit "s3gredo"))
          (typeKeys (lit "11987654321")
             (dispatch (ChangeFullName (lit "Maria Silva"))
                initialComponent))))
  = mkComponent emptyFormData false false [successToast].
Proof.
  apply (onboarding_cycle (lit "Maria Silva") (lit "s3gredo")
           (lit "11987654321"));
    try reflexivity; vm_compute; lia.
Defined.

(** X15. [handleInputChange] writes one field: afterwards that field holds
    the value and every other field, [showPassword], [isLoading] and the
    toasts are as before; a second write to the same field replaces the
    first, and writes to different fields commute. *)
Theorem handleInputChange_writes_one_field
  (f g : Field) (v w : jsstring) (c : Component) :
  fieldValue f (formData (handleInputChange f v c)) = v
  /\ (Field_eqb f g = false ->
      fieldValue g (formData (handleInputChange f v c))
      = fieldValue g (formData c))
  /\ showPassword (handleInputChange f v c) = showPassword c
  /\ isLoading (handleInputChange f v c) = isLoading c
  /\ toasts (handleInputChange f v c) = toasts c
  /\ handleInputChange f w (handleInputChange f v c)
     = handleInputChange f w c
  /\ (Field_eqb f g = false ->
      handleInputChange g w (handleInputChange f v c)
      = handleInputChange f v (handleInputChange g w c)).
Proof.
  repeat split; try (destruct f; reflexivity);
    destruct f, g; try discriminate; reflexivity.
Qed.

Lemma handleInputChange_writes_one_field_witness :
  handleInputChange Password (lit "abcdef")
    (handleInputChange FullName (lit "Ana") initialComponent)
  = handleInputChange FullName (lit "Ana")
      (handleInputChange Password (lit "abcdef") initialComponent).
Proof.
  apply (handleInputChange_writes_one_field
           FullName Password (lit "Ana") (lit "abcdef") initialComponent).
  reflexivity.
Defined.

Lemma formatPhoneNumber_prefix (s : jsstring) :
  firstn 4 (formatPhoneNumber s) = lit "+55 ".
Proof.
  unfold formatPhoneNumber.
  repeat match goal with
    | |- context [if ?b then _ else _] => destruct b
    end; reflexivity.
Qed.

(** X16. In every state the component reaches from its initial state,
    [phoneNumber] has at most 19 characters, the [maxLength] of its input,
    and is empty or begins with ["+55 "]. *)
Theorem reachable_phoneNumber_shape (events : list Event) :
  length (phoneNumber (formData (run events initialComponent))) <= 19
  /\ (phoneNumber (formData (run events initialComponent)) = []
      \/ firstn 4 (phoneNumber (formData (run events initialComponent)))
         = lit "+55 ").
Proof.
  assert (H : phoneFormatted (run events initialComponent))
    by (apply run_phoneFormatted; now left).
  destruct H as [H|[value H]]; rewrite H.
  - split; [cbn; lia|now left].
  - split; [apply formatPhoneNumber_length_cases|].
    right. apply formatPhoneNumber_prefix.
Qed.

Lemma maskChar_digits (d : jsstring) :
  forallb isDigit d = true -> forallb maskChar d = true.
Proof.
  induction d as [|c d IH]; [reflexivity|].
  cbn [forallb]. rewrite !andb_true_iff. intros [Hc Hd].
  split; [|now apply IH]. unfold maskChar. now rewrite Hc.
Qed.

(** X17. Whatever the input holds, the output consists only of digits and
    the mask's own punctuation, the characters of ["+ ()-"]: no other
    character of the input reaches [phoneNumber]. *)
Theorem formatPhoneNumber_alphabet (s : jsstring) :
  forallb maskChar (formatPhoneNumber s) = true.
Proof.
  assert (Hd : forallb maskChar (digitsOf s) = true)
    by apply maskChar_digits, digitsOf_all_digits.
  assert (Hslice : forall a b, forallb maskChar (slice (digitsOf s) a b) = true).
  { intros a b. unfold slice. now apply forallb_firstn, forallb_skipn. }
  unfold formatPhoneNumber, sliceFrom. rewrite replace_nonDigits_digitsOf.
  repeat match goal with
    | |- context [if ?b then _ else _] => destruct b
    end;
    rewrite !forallb_app, ?Hslice, ?Hd; reflexivity.
Qed.

(** X18. Which way an invocation of the submit handler ends is decided by
    the first check that fails: the name error exactly for a blank name,
    the phone error exactly for a name that is not blank with a phone that
    is blank or shorter than 19, the password error exactly when both pass
    and the password is blank or shorter than 6; otherwise the settlement
    of the submission decides between success and failure. *)
Theorem handleSubmit_exit_table (settled : Settlement) (c : Component) :
  let name := fullName (formData c) in
  let phone := phoneNumber (formData c) in
  let pw := password (formData c) in
  let exit := snd (handleSubmit settled c) in
  (exit = EmptyName <-> blank name = true)
  /\ (exit = InvalidPhone
      <-> blank name = false /\ (blank phone = true \/ length phone < 19))
  /\ (exit = WeakPassword
      <-> blank name = false /\ blank phone = false /\ 19 <= length phone
          /\ (blank pw = true \/ length pw < 6))
  /\ (exit = Success
      <-> snd (handleSubmit_toAwait c) = None /\ settled = Fulfilled)
  /\ (exit = SubmissionFailure
      <-> snd (handleSubmit_toAwait c) = None /\ settled = Rejected).
Proof.
  cbv zeta. rewrite handleSubmit_exits.
  unfold handleSubmit_toAwait, nameRejected, phoneRejected, passwordRejected.
  rewrite !isFalsy_trim.
  destruct (blank (fullName (formData c)));
    destruct (blank (phoneNumber (formData c)));
    destruct (blank (password (formData c)));
    destruct (Nat.ltb_spec (length (phoneNumber (formData c))) 19);
    destruct (Nat.ltb_spec (length (password (formData c))) 6);
    destruct settled; cbn [orb snd];
    repeat split; intros;
    repeat match goal with
      | H : _ /\ _ |- _ => destruct H
      | H : _ \/ _ |- _ => destruct H
      end;
    try discriminate; try lia; auto.
Qed.
